(** * OAuth2 / PKCE flow of the Next.js front end: middleware and callback

    Shallow embedding of
    - [src/src/middleware.ts], which holds two implementations of the
      [middleware] export: the first (lines 43-134) relies on the
      [config.matcher] gate only, the second (lines 144-238) also checks the
      path prefix itself;
    - the OAuth callback route handler [GET] of [src/unnamed/part_000]
      (lines 54-111).

    Every handler returns a response together with the trace of its effects
    (cookie reads and outbound provider calls).  The provider's answers are
    inputs of the invocation.  [JSON.parse], [JSON.stringify] and the URL
    validation of [NextResponse.redirect] are library functions; they are
    kept abstract in a [runtime] record. *)

From Stdlib Require Import Ascii String List ZArith Bool Lia DecimalString.
Import ListNotations.
Open Scope string_scope.
Set Warnings "-register-all".


(** ** JavaScript values produced by [JSON.parse] *)

(** Numbers are modelled by integers: JSON numbers are never [NaN], and the
    only number the code inspects is [expires_in], through its truthiness. *)
Inductive jval : Type :=
| JUndef
| JNull
| JBool (b : bool)
| JNum (n : Z)
| JStr (s : string)
| JArr (items : list jval)
| JObj (fields : list (string * jval)).

(** JavaScript truthiness ([!x] is [negb (truthy x)]). *)
Definition truthy (v : jval) : bool :=
  match v with
  | JUndef | JNull => false
  | JBool b => b
  | JNum n => negb (Z.eqb n 0)
  | JStr s => negb (String.eqb s "")
  | JArr _ | JObj _ => true
  end.

(** [a || b] returns [a] itself when it is truthy. *)
Definition js_or (a b : jval) : jval := if truthy a then a else b.

Fixpoint assoc {A} (k : string) (l : list (string * A)) : option A :=
  match l with
  | [] => None
  | (k', v) :: r => if String.eqb k k' then Some v else assoc k r
  end.

(** Property read [v.k] on a non-nullish value; [JSON.parse] keeps the last
    of duplicated keys. Primitives and arrays have no such own property. *)
Definition prop_get (v : jval) (k : string) : jval :=
  match v with
  | JObj fs => match assoc k (rev fs) with Some x => x | None => JUndef end
  | _ => JUndef
  end.

(** [v?.k] *)
Definition opt_get (v : jval) (k : string) : jval :=
  match v with
  | JUndef | JNull => JUndef
  | _ => prop_get v k
  end.

(** [v.k] and destructuring [const {k} = v]: a [TypeError] ([None]) on a
    nullish value. *)
Definition strict_get (v : jval) (k : string) : option jval :=
  match v with
  | JUndef | JNull => None
  | _ => Some (prop_get v k)
  end.

(** Library functions of the JavaScript runtime. [json_parse] returns
    [None] where [JSON.parse] throws; [url_ok] is the validation performed
    by [NextResponse.redirect] on an absolute URL string. *)
Record runtime : Type := {
  json_parse : string -> option jval;
  json_stringify : jval -> string;
  url_ok : string -> bool
}.

(** ** Responses, cookies and effects *)

Record cookie_opts : Type := {
  httpOnly : bool;
  secure : bool;
  sameSite : string;
  path : string;
  maxAge : option jval
}.

Inductive cookie_op : Type :=
| SetCookie (name value : string) (o : cookie_opts)
| DeleteCookie (name : string).

(** [RRedirect] targets of the middleware are the paths it resolves
    against [request.url] ([new URL(path, request.url)]); the callback
    redirects to an absolute URL string. [RUndefined] is a middleware that
    returns nothing, which Next.js treats as "continue"; [RThrow] is an
    exception escaping the handler. *)
Inductive response : Type :=
| RNext (ops : list cookie_op)
| RRedirect (target : string) (ops : list cookie_op)
| RJson (status : Z) (body : jval) (ops : list cookie_op)
| RUndefined
| RThrow (err : string).

Definition resp_ops (r : response) : list cookie_op :=
  match r with
  | RNext ops | RRedirect _ ops | RJson _ _ ops => ops
  | RUndefined | RThrow _ => []
  end.

(** Effects visible outside the handler. *)
Inductive event : Type :=
| EvReadCookie (name : string)
| EvValidate (access_token : jval)           (* GET  {API_URL}/api/user/show *)
| EvRefresh (refresh_token : jval)          (* POST {API_URL}/oauth/token *)
| EvTokenExchange (url code verifier : string). (* POST {TOKEN_URL} *)

(** ** Outbound HTTP through axios *)

(** What the far end does with one request: an HTTP reply, no reply at all
    (network failure), or a non-axios exception raised on the way. *)
Inductive http_reply : Type :=
| Reply (status : Z) (data : jval)
| NoReply (message : string)
| Fault (name message : string).

Inductive axios_result : Type :=
| AOk (data : jval)
| AErr (status : option Z) (data : jval) (message : string)
| AOther (name message : string).

(** axios' default [validateStatus]: only 2xx resolves; every other status
    rejects with an [AxiosError] whose [response] is set; a failure with no
    reply rejects with an [AxiosError] without [response]. *)
Definition axios_call (r : http_reply) : axios_result :=
  match r with
  | Reply s d =>
      if (200 <=? s)%Z && (s <? 300)%Z then AOk d
      else AErr (Some s) d "Request failed with status code"
  | NoReply m => AErr None JUndef m
  | Fault n m => AOther n m
  end.

(** The provider's answers to the calls one invocation may make. *)
Record provider : Type := {
  validate_reply : http_reply;
  refresh_reply : http_reply
}.

(** [process.env] *)
Record env : Type := {
  NEXT_PUBLIC_API_URL : option string;
  NEXT_PUBLIC_OAUTH_CLIENT_ID : option string;
  NEXT_PUBLIC_OAUTH_TOKEN_URL : option string;
  NEXT_PUBLIC_OAUTH_REDIRECT_URI : option string;
  NEXT_PUBLIC_APP_URL : option string;
  node_env_production : bool
}.

(** Template literal interpolation of an environment variable. *)
Definition env_str (o : option string) : string :=
  match o with Some s => s | None => "undefined" end.

(** [!s] on a [string | undefined | null]. *)
Definition present (o : option string) : bool :=
  match o with Some s => negb (String.eqb s "") | None => false end.

(** ** Requests *)

Record request : Type := {
  pathname : string;
  cookies : list (string * string)
}.

(** [request.cookies.get(name)?.value] *)
Definition cookie_get (req : request) (name : string) : option string :=
  assoc name (cookies req).

(** [config.matcher = ["/dashboard/:path*"]] (both copies of the file):
    [/dashboard] itself and every path below it. *)
Definition matcher_matches (p : string) : bool :=
  String.eqb p "/dashboard" || String.prefix "/dashboard/" p.

(** Next.js runs the middleware only where the matcher matches; elsewhere
    the request continues untouched. *)
Definition dispatch (mw : request -> response * list event) (req : request)
  : response * list event :=
  if matcher_matches (pathname req) then mw req else (RNext [], []).

Definition status_is (st : option Z) (n : Z) : bool :=
  match st with Some s => Z.eqb s n | None => false end.

(** ** [middleware], first copy (lines 43-134): gated by [config.matcher] *)

Module MatcherGated.

Definition login : response := RRedirect "/auth/login" [].

(** The [401] branch (lines 86-121): one POST with
    [grant_type=refresh_token]; any exception, including the [TypeError] of
    [newTokens.expires_in] on a nullish body, ends in the login redirect. *)
Definition refresh (rt : runtime) (e : env) (prov : provider) : response :=
  match axios_call (refresh_reply prov) with
  | AOk newTokens =>
      match strict_get newTokens "expires_in" with
      | Some expires_in =>
          RNext [SetCookie "oauth_data" (json_stringify rt newTokens)
                   {| httpOnly := true; secure := node_env_production e;
                      sameSite := "lax"; path := "/";
                      maxAge := Some (js_or expires_in (JNum 3600)) |}]
      | None => login
      end
  | _ => login
  end.

Definition middleware (rt : runtime) (e : env) (prov : provider) (req : request)
  : response * list event :=
  let rd := [EvReadCookie "oauth_data"] in
  match cookie_get req "oauth_data" with
  | None => (login, rd)
  | Some oauthCookie =>
      if String.eqb oauthCookie "" then (login, rd) else
      match json_parse rt oauthCookie with
      | None => (login, rd)
      | Some oauthData =>
          let access_token := opt_get oauthData "access_token" in
          let refresh_token := opt_get oauthData "refresh_token" in
          if negb (truthy access_token) then (login, rd) else
          let tr := (rd ++ [EvValidate access_token])%list in
          match axios_call (validate_reply prov) with
          | AOk _ => (RNext [], tr)
          | AErr status _ _ =>
              if status_is status 401 then
                (refresh rt e prov, (tr ++ [EvRefresh refresh_token])%list)
              else if status_is status 403 then
                (RRedirect "/auth/forbidden" [], tr)
              else (login, tr)
          | AOther _ _ => (login, tr)
          end
      end
  end.

End MatcherGated.

(** ** [middleware], second copy (lines 144-238): explicit prefix check *)

Module PrefixCheck.

Definition login : response := RRedirect "/auth/login" [].

Definition protectedPaths : list string := ["/dashboard"].

(** The [401] branch (lines 194-232). *)
Definition refresh (rt : runtime) (e : env) (prov : provider) : response :=
  match axios_call (refresh_reply prov) with
  | AOk newTokens =>
      match strict_get newTokens "expires_in" with
      | Some expires_in =>
          RNext [SetCookie "oauth_data" (json_stringify rt newTokens)
                   {| httpOnly := true; secure := node_env_production e;
                      sameSite := "lax"; path := "/";
                      maxAge := Some (js_or expires_in (JNum 3600)) |}]
      | None => login
      end
  | _ => login
  end.

(** [const { access_token, refresh_token } = parsedData] sits outside any
    [try]: on a nullish [parsedData] its [TypeError] escapes the handler.
    In the [catch] of the validation call, an axios error whose status is
    not [401] reaches the end of the function, which returns [undefined]. *)
Definition middleware (rt : runtime) (e : env) (prov : provider) (req : request)
  : response * list event :=
  if negb (existsb (fun p => String.prefix p (pathname req)) protectedPaths)
  then (RNext [], []) else
  let rd := [EvReadCookie "oauth_data"] in
  match cookie_get req "oauth_data" with
  | None => (login, rd)
  | Some oauthData =>
      if String.eqb oauthData "" then (login, rd) else
      match json_parse rt oauthData with
      | None => (login, rd)
      | Some parsedData =>
          match strict_get parsedData "access_token",
                strict_get parsedData "refresh_token" with
          | Some access_token, Some refresh_token =>
              if negb (truthy access_token) || negb (truthy refresh_token)
              then (login, rd) else
              let tr := (rd ++ [EvValidate access_token])%list in
              match axios_call (validate_reply prov) with
              | AOk _ => (RNext [], tr)
              | AErr status _ _ =>
                  if status_is status 401 then
                    (refresh rt e prov, (tr ++ [EvRefresh refresh_token])%list)
                  else (RUndefined, tr)
              | AOther _ _ => (login, tr)
              end
          | _, _ => (RThrow "TypeError", rd)
          end
      end
  end.

End PrefixCheck.

(** The double quote character. *)
Definition dq : string := String "034"%char EmptyString.

Definition quoted (s : string) : string := dq ++ s ++ dq.

(** ** OAuth callback route handler [GET] (src/unnamed/part_000, 54-111) *)

Module Callback.

Record cb_request : Type := {
  query : list (string * string);          (* [new URL(request.url).searchParams] *)
  cb_cookies : list (string * string)      (* [await cookies()] *)
}.

Definition invalid_state : jval :=
  JObj [("error", JStr "Invalid state: missing code or verifier")].

(** [OAuthErrorPayload] of an axios error. The texts of [err.message] and
    [err.code] come from axios; [code] is left out. *)
Definition axios_payload (status : option Z) (data : jval) (message : string)
  : jval :=
  JObj [("error", JStr "OAuth Error"); ("message", JStr message);
        ("status", match status with Some s => JNum s | None => JUndef end);
        ("details", match data with JUndef | JNull => JNull | d => d end)].

(** [OAuthErrorPayload] of an [Error] instance; the [stack] added outside
    production is left out. *)
Definition error_payload (name message : string) : jval :=
  JObj [("error", JStr "OAuth Error"); ("message", JStr message);
        ("name", JStr name)].

(** Options of [response.cookies.set("oauth_data", ...)], lines 83-88. *)
Definition oauth_cookie_opts : cookie_opts :=
  {| httpOnly := true; secure := false; sameSite := "lax"; path := "/";
     maxAge := None |}.

(** The [Error] that [NextResponse.redirect] throws when its target is not
    a valid absolute URL. *)
Definition malformed_url_message (url : string) : string :=
  "URL is malformed " ++ quoted url ++
  ". Please use only absolute URLs - https://nextjs.org/docs/messages/middleware-relative-urls".

(** The [try] block, lines 68-90, and its [catch], lines 91-110. *)
Definition exchange (rt : runtime) (e : env) (reply : http_reply)
  (code verifier : string) : response * list event :=
  match NEXT_PUBLIC_OAUTH_TOKEN_URL e with
  | None => (RJson 500 (error_payload "Error" "Token URL not defined") [], [])
  | Some tokenUrl =>
      if String.eqb tokenUrl "" then
        (RJson 500 (error_payload "Error" "Token URL not defined") [], [])
      else
      let tr := [EvTokenExchange tokenUrl code verifier] in
      match axios_call reply with
      | AOk data =>
          let target := env_str (NEXT_PUBLIC_APP_URL e) ++ "/dashboard" in
          if url_ok rt target then
            (RRedirect target
               [SetCookie "oauth_data" (json_stringify rt data) oauth_cookie_opts;
                DeleteCookie "pkce_verifier"], tr)
          else (RJson 500 (error_payload "Error" (malformed_url_message target)) [], tr)
      | AErr status data message =>
          (RJson 500 (axios_payload status data message) [], tr)
      | AOther name message =>
          (RJson 500 (error_payload name message) [], tr)
      end
  end.

Definition GET (rt : runtime) (e : env) (reply : http_reply) (req : cb_request)
  : response * list event :=
  let code := assoc "code" (query req) in
  let verifier := assoc "pkce_verifier" (cb_cookies req) in
  match code, verifier with
  | Some c, Some v =>
      if String.eqb c "" || String.eqb v "" then (RJson 400 invalid_state [], [])
      else exchange rt e reply c v
  | _, _ => (RJson 400 invalid_state [], [])
  end.

End Callback.

(** ** Concrete runtime and inputs used by the examples *)

(** Cookie texts: [{"access_token":"a"}] and
    [{"access_token":"a","refresh_token":"r"}]. *)
Definition only_access_text : string :=
  "{" ++ quoted "access_token" ++ ":" ++ quoted "a" ++ "}".

Definition both_tokens_text : string :=
  "{" ++ quoted "access_token" ++ ":" ++ quoted "a" ++ ","
      ++ quoted "refresh_token" ++ ":" ++ quoted "r" ++ "}".

(** A [JSON.parse] that knows the cookie texts the examples use, and agrees
    with the real one on them. *)
Definition toy_parse (s : string) : option jval :=
  if String.eqb s "null" then Some JNull
  else if String.eqb s only_access_text then
    Some (JObj [("access_token", JStr "a")])
  else if String.eqb s both_tokens_text then
    Some (JObj [("access_token", JStr "a"); ("refresh_token", JStr "r")])
  else None.

(** [JSON.stringify] on the values the examples write. *)
Definition toy_stringify (v : jval) : string :=
  match v with
  | JObj [("access_token", JStr "a")] => only_access_text
  | JObj [("access_token", JStr "a"); ("refresh_token", JStr "r")] =>
      both_tokens_text
  | JNull => "null"
  | _ => "{}"
  end.

Definition toy_rt : runtime :=
  {| json_parse := toy_parse; json_stringify := toy_stringify;
     url_ok := fun s => String.prefix "http://" s || String.prefix "https://" s |}.

Definition toy_env : env :=
  {| NEXT_PUBLIC_API_URL := Some "http://localhost:8000";
     NEXT_PUBLIC_OAUTH_CLIENT_ID := Some "1";
     NEXT_PUBLIC_OAUTH_TOKEN_URL := Some "http://localhost:8000/oauth/token";
     NEXT_PUBLIC_OAUTH_REDIRECT_URI := Some "http://localhost:3000/auth/callback";
     NEXT_PUBLIC_APP_URL := Some "http://localhost:3000";
     node_env_production := false |}.

Definition dash_req (c : string) : request :=
  {| pathname := "/dashboard"; cookies := [("oauth_data", c)] |}.

Definition prov_of (v r : http_reply) : provider :=
  {| validate_reply := v; refresh_reply := r |}.

Definition toy_cb_req : Callback.cb_request :=
  {| Callback.query := [("code", "abc")];
     Callback.cb_cookies := [("pkce_verifier", "ver")] |}.


(** ** [URLSearchParams]: the form bodies and query strings the code builds *)

(** Bytes the [application/x-www-form-urlencoded] serializer of the URL
    Standard leaves as they are: ASCII alphanumerics and [*], [-], [.], [_].
    Strings are taken as their UTF-8 bytes. *)
Definition form_safe (c : ascii) : bool :=
  let n := nat_of_ascii c in
  ((48 <=? n) && (n <=? 57))%nat || ((65 <=? n) && (n <=? 90))%nat
  || ((97 <=? n) && (n <=? 122))%nat
  || (n =? 42)%nat || (n =? 45)%nat || (n =? 46)%nat || (n =? 95)%nat.

(** Upper-case hexadecimal digit of [k < 16]. *)
Definition hex_digit (k : nat) : ascii :=
  if (k <? 10)%nat then ascii_of_nat (48 + k) else ascii_of_nat (55 + k).

Definition form_byte (c : ascii) : string :=
  if Ascii.eqb c " "%char then "+"
  else if form_safe c then String c EmptyString
  else String "%"%char
         (String (hex_digit (nat_of_ascii c / 16))
            (String (hex_digit (nat_of_ascii c mod 16)) EmptyString)).

Fixpoint form_encode (s : string) : string :=
  match s with
  | EmptyString => EmptyString
  | String c r => form_byte c ++ form_encode r
  end.

(** [new URLSearchParams(...).toString()] for the appended pairs. *)
Definition form_serialize (l : list (string * string)) : string :=
  String.concat "&" (map (fun '(k, v) => form_encode k ++ "=" ++ form_encode v) l).

(** The [application/x-www-form-urlencoded] parser of the URL Standard, as a
    receiver of these bodies runs it. *)
Definition hex_value (c : ascii) : option nat :=
  let n := nat_of_ascii c in
  if ((48 <=? n) && (n <=? 57))%nat then Some (n - 48)%nat
  else if ((65 <=? n) && (n <=? 70))%nat then Some (n - 55)%nat
  else if ((97 <=? n) && (n <=? 102))%nat then Some (n - 87)%nat
  else None.

Fixpoint percent_decode (s : string) : string :=
  match s with
  | EmptyString => EmptyString
  | String c r =>
      if Ascii.eqb c "%"%char then
        match r with
        | String h1 (String h2 r') =>
            match hex_value h1, hex_value h2 with
            | Some a, Some b =>
                String (ascii_of_nat (16 * a + b)) (percent_decode r')
            | _, _ => String c (percent_decode r)
            end
        | _ => String c (percent_decode r)
        end
      else String c (percent_decode r)
  end.

Fixpoint plus_to_space (s : string) : string :=
  match s with
  | EmptyString => EmptyString
  | String c r =>
      String (if Ascii.eqb c "+"%char then " "%char else c) (plus_to_space r)
  end.

(** Splitting on every occurrence of [d]. *)
Fixpoint split_on (d : ascii) (s : string) : list string :=
  match s with
  | EmptyString => [EmptyString]
  | String c r =>
      let rest := split_on d r in
      if Ascii.eqb c d then EmptyString :: rest
      else match rest with
           | h :: t => String c h :: t
           | [] => [String c EmptyString]
           end
  end.

(** Splitting at the first occurrence of [d]. *)
Fixpoint split_first (d : ascii) (s : string) : string * option string :=
  match s with
  | EmptyString => (EmptyString, None)
  | String c r =>
      if Ascii.eqb c d then (EmptyString, Some r)
      else let '(a, b) := split_first d r in (String c a, b)
  end.

Definition form_decode (s : string) : string := percent_decode (plus_to_space s).

Definition form_parse (s : string) : list (string * string) :=
  map (fun sq =>
         match split_first "="%char sq with
         | (name, Some value) => (form_decode name, form_decode value)
         | (name, None) => (form_decode name, EmptyString)
         end)
      (filter (fun sq => negb (String.eqb sq EmptyString)) (split_on "&"%char s)).




(** [process.env.NEXT_PUBLIC_OAUTH_CLIENT_ID ?? ""] *)
Definition client_id (e : env) : string :=
  match NEXT_PUBLIC_OAUTH_CLIENT_ID e with Some s => s | None => "" end.



(** [params] of the callback's token exchange (part_000 lines 72-78). *)
Definition exchange_params (e : env) (code verifier : string)
  : list (string * string) :=
  [("grant_type", "authorization_code"); ("client_id", client_id e);
   ("redirect_uri",
      match NEXT_PUBLIC_OAUTH_REDIRECT_URI e with Some s => s | None => "" end);
   ("code", code); ("code_verifier", verifier)].

Definition exchange_body (e : env) (code verifier : string) : string :=
  form_serialize (exchange_params e code verifier).

(** ** PKCE initiator [GET] (src/unnamed/part_000, lines 19-37) *)

(** [generateCodeVerifier] and [generateCodeChallenge] come from
    [@/lib/pkce]; the handler is embedded for any verifier and any
    challenge function. The verifier cookie is set through
    [cookies()], which Next.js attaches to the returned response. *)
Module Start.

Definition verifier_cookie_opts : cookie_opts :=
  {| httpOnly := true; secure := false; sameSite := "lax"; path := "/";
     maxAge := None |}.

Definition GET (verifier : string) (generateCodeChallenge : string -> string)
  : response :=
  let challenge := generateCodeChallenge verifier in
  let params := form_serialize [("code_challenge", challenge);
                                ("code_challenge_method", "S256")] in
  RRedirect ("http://localhost:8000/start-pkce?" ++ params)
    [SetCookie "pkce_verifier" verifier verifier_cookie_opts].

End Start.

(** ** The browser's cookie jar, as it applies the cookie operations of a
    response. Next.js writes [Max-Age] only for a numeric [maxAge]; for any
    truthy [maxAge] it also writes [Expires = now + maxAge * 1000] ms. A
    numeric max-age of 0 or less, or a deletion, removes the cookie; an
    [Expires] already past removes it too; any other write replaces it. *)
Definition remove_key (n : string) (jar : list (string * string))
  : list (string * string) :=
  filter (fun kv => negb (String.eqb (fst kv) n)) jar.

Section Jar.

(** [expiry_past v]: whether the browser finds the [Expires] date written
    for a truthy non-numeric [maxAge] [v] already past when it stores the
    cookie. It is when [Number(v) <= 0]; it is not when [Number(v) >= 1],
    nor for [NaN], whose [Invalid Date] the browser ignores; in between it
    depends on the clock. *)
Variable expiry_past : jval -> bool.



End Jar.



Example toy_parse_both :
  toy_parse both_tokens_text =
  Some (JObj [("access_token", JStr "a"); ("refresh_token", JStr "r")]).
Proof. reflexivity. Qed.

Example matcher_gated_403 :
  MatcherGated.middleware toy_rt toy_env
    (prov_of (Reply 403 JNull) (Reply 500 JNull)) (dash_req both_tokens_text)
  = (RRedirect "/auth/forbidden" [],
     [EvReadCookie "oauth_data"; EvValidate (JStr "a")]).
Proof. reflexivity. Qed.

Example prefix_check_403 :
  PrefixCheck.middleware toy_rt toy_env
    (prov_of (Reply 403 JNull) (Reply 500 JNull)) (dash_req both_tokens_text)
  = (RUndefined, [EvReadCookie "oauth_data"; EvValidate (JStr "a")]).
Proof. reflexivity. Qed.

Example prefix_check_null :
  PrefixCheck.middleware toy_rt toy_env
    (prov_of (Reply 200 JNull) (Reply 500 JNull)) (dash_req "null")
  = (RThrow "TypeError", [EvReadCookie "oauth_data"]).
Proof. reflexivity. Qed.

(** ** Helper lemmas *)

Ltac case_matches :=
  repeat (simpl; match goal with
  | |- context [match ?x with _ => _ end] =>
      lazymatch x with
      | context [match _ with _ => _ end] => fail
      | _ => let E := fresh "E" in destruct x eqn:E
      end
  end).

Lemma prefix_app_l (s1 s2 p : string) :
  String.prefix (s1 ++ s2) p = true -> String.prefix s1 p = true.
Proof.
  revert p; induction s1 as [|a s1 IH]; intros p H; [destruct p; reflexivity|].
  destruct p as [|b p]; simpl in *; [discriminate|].
  destruct (ascii_dec a b); [apply IH; exact H | discriminate].
Qed.

(** Every path the matcher admits passes the explicit prefix check. *)
Lemma matcher_protected (p : string) :
  matcher_matches p = true ->
  existsb (fun q => String.prefix q p) PrefixCheck.protectedPaths = true.
Proof.
  unfold matcher_matches; simpl; intros H.
  apply orb_true_iff in H as [H | H].
  - apply String.eqb_eq in H; subst; reflexivity.
  - change "/dashboard/" with ("/dashboard" ++ "/") in H.
    rewrite (prefix_app_l _ _ _ H); reflexivity.
Qed.

Lemma matcher_prefix (p : string) :
  String.prefix "/dashboard" p = false -> matcher_matches p = false.
Proof.
  intros H; destruct (matcher_matches p) eqn:M; [|reflexivity].
  apply matcher_protected in M; simpl in M; rewrite H in M; discriminate.
Qed.

(** ** Claims *)

(** C9: a request whose path does not start with [/dashboard] continues
    untouched (no cookie write), with no cookie read and no provider call,
    under either implementation: the matcher keeps the first copy from
    running, and the second copy's own prefix check returns
    [NextResponse.next()] at once. *)
Theorem unprotected_paths_bypass (rt : runtime) (e : env) (prov : provider)
  (req : request) :
  String.prefix "/dashboard" (pathname req) = false ->
  dispatch (MatcherGated.middleware rt e prov) req = (RNext [], []) /\
  dispatch (PrefixCheck.middleware rt e prov) req = (RNext [], []) /\
  PrefixCheck.middleware rt e prov req = (RNext [], []).
Proof.
  intros H; unfold dispatch; rewrite (matcher_prefix _ H).
  split; [reflexivity | split; [reflexivity|]].
  unfold PrefixCheck.middleware; simpl; rewrite H; reflexivity.
Qed.

Lemma unprotected_paths_bypass_witness :
  String.prefix "/dashboard" "/auth/login" = false /\
  dispatch (MatcherGated.middleware toy_rt toy_env
              (prov_of (Reply 200 JNull) (Reply 200 JNull)))
    {| pathname := "/auth/login"; cookies := [("oauth_data", both_tokens_text)] |}
    = (RNext [], []).
Proof.
  split; [reflexivity|].
  apply (unprotected_paths_bypass toy_rt toy_env
           (prov_of (Reply 200 JNull) (Reply 200 JNull))
           {| pathname := "/auth/login";
              cookies := [("oauth_data", both_tokens_text)] |}).
  reflexivity.
Defined.

(** C10: every failure response of the callback is a JSON response that
    sets and deletes no cookie; the only response carrying cookie
    operations is the success redirect, reached only when the token
    exchange resolved. *)
Theorem callback_failures_keep_cookies (rt : runtime) (e : env)
  (reply : http_reply) (req : Callback.cb_request) :
  match fst (Callback.GET rt e reply req) with
  | RJson _ _ ops => ops = []
  | RRedirect _ _ => exists d, axios_call reply = AOk d
  | _ => False
  end.
Proof.
  unfold Callback.GET, Callback.exchange.
  case_matches; simpl; eauto.
Qed.


(** C5: with a [code] query parameter and a [pkce_verifier] cookie (both
    non-empty, as the token exchange is only attempted then), a configured
    token endpoint and [APP_URL], and a provider answering the exchange
    with a 2xx body [d], the callback redirects to [{APP_URL}/dashboard],
    sets [oauth_data] to [JSON.stringify(d)] and deletes [pkce_verifier];
    its one outbound call is the exchange of [code] and verifier. *)
Theorem callback_success (rt : runtime) (e : env) (reply : http_reply)
  (req : Callback.cb_request) (c v u a : string) (d : jval) :
  assoc "code" (Callback.query req) = Some c -> c <> "" ->
  assoc "pkce_verifier" (Callback.cb_cookies req) = Some v -> v <> "" ->
  NEXT_PUBLIC_OAUTH_TOKEN_URL e = Some u -> u <> "" ->
  NEXT_PUBLIC_APP_URL e = Some a -> url_ok rt (a ++ "/dashboard") = true ->
  axios_call reply = AOk d ->
  Callback.GET rt e reply req =
  (RRedirect (a ++ "/dashboard")
     [SetCookie "oauth_data" (json_stringify rt d) Callback.oauth_cookie_opts;
      DeleteCookie "pkce_verifier"],
   [EvTokenExchange u c v]).
Proof.
  intros Hc Hc' Hv Hv' Hu Hu' Ha Hok Hd.
  unfold Callback.GET, Callback.exchange.
  rewrite Hc, Hv, Hu, Ha, Hd; simpl.
  apply String.eqb_neq in Hc', Hv', Hu'.
  rewrite Hc', Hv', Hu'; simpl; rewrite Hok; reflexivity.
Qed.


Lemma callback_success_witness :
  Callback.GET toy_rt toy_env (Reply 200 (JObj [("access_token", JStr "a")]))
    toy_cb_req =
  (RRedirect ("http://localhost:3000" ++ "/dashboard")
     [SetCookie "oauth_data" only_access_text Callback.oauth_cookie_opts;
      DeleteCookie "pkce_verifier"],
   [EvTokenExchange "http://localhost:8000/oauth/token" "abc" "ver"]).
Proof.
  apply (callback_success toy_rt toy_env
           (Reply 200 (JObj [("access_token", JStr "a")])) toy_cb_req
           "abc" "ver" "http://localhost:8000/oauth/token"
           "http://localhost:3000" (JObj [("access_token", JStr "a")]));
    try reflexivity; discriminate.
Defined.

(** C6, as stated: a [code] parameter that is present but empty also gets
    the 400 [Invalid state] answer, although neither input is absent. *)
Lemma callback_400_empty_code :
  ~ (forall rt e reply req,
       fst (Callback.GET rt e reply req) = RJson 400 Callback.invalid_state []
       <-> assoc "code" (Callback.query req) = None
           \/ assoc "pkce_verifier" (Callback.cb_cookies req) = None).
Proof.
  intros H.
  destruct (H toy_rt toy_env (Reply 200 JNull)
              {| Callback.query := [("code", "")];
                 Callback.cb_cookies := [("pkce_verifier", "ver")] |})
    as [H1 _].
  destruct (H1 eq_refl) as [E | E]; discriminate.
Qed.

(** C6, amended: the callback answers 400 with
    [{error: "Invalid state: missing code or verifier"}] exactly when the
    [code] parameter or the [pkce_verifier] cookie is absent or empty. *)
Theorem callback_400_iff (rt : runtime) (e : env) (reply : http_reply)
  (req : Callback.cb_request) :
  fst (Callback.GET rt e reply req) = RJson 400 Callback.invalid_state []
  <-> present (assoc "code" (Callback.query req)) = false
      \/ present (assoc "pkce_verifier" (Callback.cb_cookies req)) = false.
Proof.
  unfold Callback.GET, Callback.exchange, present.
  destruct (assoc "code" (Callback.query req)) as [c|];
    [|simpl; split; auto].
  destruct (assoc "pkce_verifier" (Callback.cb_cookies req)) as [v|];
    [|simpl; split; auto].
  destruct (String.eqb c "") eqn:Ec, (String.eqb v "") eqn:Ev; simpl;
    try (split; auto; fail).
  split; [|intros [H | H]; discriminate].
  intros H; exfalso; revert H; case_matches; discriminate.
Qed.


Lemma refresh_same (rt : runtime) (e : env) (prov : provider) :
  MatcherGated.refresh rt e prov = PrefixCheck.refresh rt e prov.
Proof. reflexivity. Qed.


(** C2: on a protected path, with a cookie carrying both tokens, a 403 from
    the validation endpoint makes the second copy return [undefined] (the
    request continues) where the first redirects to [/auth/forbidden]. *)
Theorem prefix_check_403_continues :
  dispatch (PrefixCheck.middleware toy_rt toy_env
              (prov_of (Reply 403 JNull) (Reply 500 JNull)))
    (dash_req both_tokens_text)
  = (RUndefined, [EvReadCookie "oauth_data"; EvValidate (JStr "a")]) /\
  dispatch (MatcherGated.middleware toy_rt toy_env
              (prov_of (Reply 403 JNull) (Reply 500 JNull)))
    (dash_req both_tokens_text)
  = (RRedirect "/auth/forbidden" [],
     [EvReadCookie "oauth_data"; EvValidate (JStr "a")]).
Proof. split; reflexivity. Qed.

(** C3: a 500 from the validation endpoint, or a network failure without
    any reply, also makes the second copy return [undefined]; the first
    copy redirects to [/auth/login] in both cases. *)
Theorem prefix_check_error_continues :
  fst (dispatch (PrefixCheck.middleware toy_rt toy_env
                   (prov_of (Reply 500 JNull) (Reply 500 JNull)))
         (dash_req both_tokens_text)) = RUndefined /\
  fst (dispatch (PrefixCheck.middleware toy_rt toy_env
                   (prov_of (NoReply "ECONNREFUSED") (Reply 500 JNull)))
         (dash_req both_tokens_text)) = RUndefined /\
  fst (dispatch (MatcherGated.middleware toy_rt toy_env
                   (prov_of (Reply 500 JNull) (Reply 500 JNull)))
         (dash_req both_tokens_text)) = RRedirect "/auth/login" [] /\
  fst (dispatch (MatcherGated.middleware toy_rt toy_env
                   (prov_of (NoReply "ECONNREFUSED") (Reply 500 JNull)))
         (dash_req both_tokens_text)) = RRedirect "/auth/login" [].
Proof. repeat split. Qed.







Lemma matcher_gated_ops (rt : runtime) (e : env) (prov : provider)
  (req : request) (x : cookie_op) :
  In x (resp_ops (fst (MatcherGated.middleware rt e prov req))) ->
  In x (resp_ops (MatcherGated.refresh rt e prov)).
Proof.
  unfold MatcherGated.middleware; case_matches; simpl; tauto.
Qed.

Lemma prefix_check_ops (rt : runtime) (e : env) (prov : provider)
  (req : request) (x : cookie_op) :
  In x (resp_ops (fst (PrefixCheck.middleware rt e prov req))) ->
  In x (resp_ops (PrefixCheck.refresh rt e prov)).
Proof.
  unfold PrefixCheck.middleware; case_matches; simpl; tauto.
Qed.

Lemma refresh_ops (rt : runtime) (e : env) (prov : provider) (v : string)
  (o : cookie_opts) :
  In (SetCookie "oauth_data" v o) (resp_ops (MatcherGated.refresh rt e prov)) ->
  exists d, axios_call (refresh_reply prov) = AOk d /\ v = json_stringify rt d /\
    maxAge o = Some (js_or (prop_get d "expires_in") (JNum 3600)).
Proof.
  unfold MatcherGated.refresh.
  destruct (axios_call (refresh_reply prov)) as [d| |]; simpl; try tauto.
  destruct d; simpl; try tauto;
    intros [H | []]; injection H as <- <-; eexists; eauto.
Qed.

(** C7, as stated: a refresh answered with [expires_in: 0] writes
    [oauth_data] with max-age 3600, not 0 ([expires_in || 3600]). *)
Lemma refresh_max_age_zero :
  exists v o,
    fst (dispatch (MatcherGated.middleware toy_rt toy_env
                     (prov_of (Reply 401 JNull)
                        (Reply 200 (JObj [("access_token", JStr "b");
                                          ("expires_in", JNum 0)]))))
           (dash_req both_tokens_text)) = RNext [SetCookie "oauth_data" v o]
    /\ maxAge o = Some (JNum 3600) /\ maxAge o <> Some (JNum 0).
Proof.
  do 2 eexists; split; [reflexivity|]; split; [reflexivity|].
  simpl; intros H; injection H; discriminate.
Qed.

(** C7, amended: every [oauth_data] cookie the middleware writes (either
    copy) comes from a resolved refresh call with body [d]; its value is
    [JSON.stringify(d)] and its max-age is [d.expires_in] when that is
    truthy, 3600 otherwise. *)
Theorem refresh_cookie_max_age (rt : runtime) (e : env) (prov : provider)
  (req : request) (v : string) (o : cookie_opts) :
  In (SetCookie "oauth_data" v o)
     (resp_ops (fst (MatcherGated.middleware rt e prov req)))
  \/ In (SetCookie "oauth_data" v o)
        (resp_ops (fst (PrefixCheck.middleware rt e prov req))) ->
  exists d, axios_call (refresh_reply prov) = AOk d /\ v = json_stringify rt d /\
    maxAge o = Some (js_or (prop_get d "expires_in") (JNum 3600)).
Proof.
  intros [H | H]; apply (refresh_ops rt e prov).
  - exact (matcher_gated_ops _ _ _ _ _ H).
  - rewrite refresh_same; exact (prefix_check_ops _ _ _ _ _ H).
Qed.

Lemma refresh_cookie_max_age_witness :
  exists d, axios_call (Reply 200 (JObj [("expires_in", JNum 7200)])) = AOk d /\
    "{}" = json_stringify toy_rt d /\
    maxAge {| httpOnly := true; secure := false; sameSite := "lax"; path := "/";
              maxAge := Some (JNum 7200) |}
    = Some (js_or (prop_get d "expires_in") (JNum 3600)).
Proof.
  apply (refresh_cookie_max_age toy_rt toy_env
           (prov_of (Reply 401 JNull) (Reply 200 (JObj [("expires_in", JNum 7200)])))
           (dash_req both_tokens_text)).
  left; vm_compute; left; reflexivity.
Defined.





Lemma matcher_gated_refreshed (rt : runtime) (e : env) (prov : provider)
  (req : request) (a r : jval) :
  snd (MatcherGated.middleware rt e prov req) =
    [EvReadCookie "oauth_data"; EvValidate a; EvRefresh r] ->
  fst (MatcherGated.middleware rt e prov req) = MatcherGated.refresh rt e prov.
Proof.
  unfold MatcherGated.middleware at 1 2; case_matches; intros H;
    solve [reflexivity | discriminate].
Qed.

Lemma prefix_check_refreshed (rt : runtime) (e : env) (prov : provider)
  (req : request) (a r : jval) :
  snd (PrefixCheck.middleware rt e prov req) =
    [EvReadCookie "oauth_data"; EvValidate a; EvRefresh r] ->
  fst (PrefixCheck.middleware rt e prov req) = PrefixCheck.refresh rt e prov.
Proof.
  unfold PrefixCheck.middleware at 1 2; case_matches; intros H;
    solve [reflexivity | discriminate].
Qed.




(** ** Form encoding: lemmas *)

Fixpoint has_char (d : ascii) (s : string) : bool :=
  match s with
  | EmptyString => false
  | String c r => Ascii.eqb c d || has_char d r
  end.

Lemma hex_digit_facts (k : nat) :
  (k < 16)%nat ->
  hex_value (hex_digit k) = Some k /\ Ascii.eqb (hex_digit k) "+"%char = false /\
  Ascii.eqb (hex_digit k) "="%char = false /\ Ascii.eqb (hex_digit k) "&"%char = false.
Proof.
  intros H; do 16 (destruct k as [|k]; [vm_compute; tauto|]); lia.
Qed.

Lemma form_safe_not (c d : ascii) :
  form_safe c = true -> form_safe d = false -> Ascii.eqb c d = false.
Proof.
  intros Hc Hd; destruct (Ascii.eqb c d) eqn:E; [|reflexivity].
  apply Ascii.eqb_eq in E; subst; congruence.
Qed.

Lemma plus_to_space_app (a b : string) :
  plus_to_space (a ++ b) = plus_to_space a ++ plus_to_space b.
Proof. induction a as [|c a IH]; simpl; [reflexivity | rewrite IH; reflexivity]. Qed.

Lemma div_mod_16 (n : nat) :
  (n < 256)%nat -> (n / 16 < 16)%nat /\ (n mod 16 < 16)%nat /\
  (16 * (n / 16) + n mod 16 = n)%nat.
Proof.
  intros H; split; [apply Nat.Div0.div_lt_upper_bound; lia|].
  split; [apply Nat.mod_upper_bound; lia|].
  symmetry; apply Nat.div_mod; lia.
Qed.

(** One encoded byte decodes back to itself, whatever follows it. *)
Lemma decode_form_byte (c : ascii) (t : string) :
  percent_decode (plus_to_space (form_byte c) ++ t) = String c (percent_decode t).
Proof.
  unfold form_byte.
  destruct (Ascii.eqb c " "%char) eqn:Es.
  - apply Ascii.eqb_eq in Es; subst; reflexivity.
  - destruct (form_safe c) eqn:Ef.
    + simpl.
      rewrite (form_safe_not c "+"%char Ef eq_refl); simpl.
      rewrite (form_safe_not c "%"%char Ef eq_refl); reflexivity.
    + pose proof (nat_ascii_bounded c) as Hb.
      destruct (div_mod_16 _ Hb) as [H1 [H2 H3]].
      destruct (hex_digit_facts _ H1) as [V1 [P1 _]].
      destruct (hex_digit_facts _ H2) as [V2 [P2 _]].
      revert V1 P1 V2 P2 H3.
      generalize (hex_digit (nat_of_ascii c / 16)) (hex_digit (nat_of_ascii c mod 16))
        (nat_of_ascii c / 16)%nat (nat_of_ascii c mod 16)%nat.
      intros h1 h2 a b V1 P1 V2 P2 H3.
      simpl; rewrite P1, P2; simpl; rewrite V1, V2.
      f_equal; rewrite <- (ascii_nat_embedding c); f_equal; lia.
Qed.

Lemma form_decode_encode (s : string) : form_decode (form_encode s) = s.
Proof.
  unfold form_decode.
  induction s as [|c s IH]; [reflexivity|].
  simpl; rewrite plus_to_space_app, decode_form_byte, IH; reflexivity.
Qed.

Lemma has_char_app (d : ascii) (a b : string) :
  has_char d (a ++ b) = has_char d a || has_char d b.
Proof.
  induction a as [|c a IH]; simpl; [reflexivity|]; rewrite IH, orb_assoc; reflexivity.
Qed.

Lemma form_byte_no (c d : ascii) :
  form_safe d = false -> Ascii.eqb d "+"%char = false -> Ascii.eqb d "%"%char = false ->
  (forall k, (k < 16)%nat -> Ascii.eqb (hex_digit k) d = false) ->
  has_char d (form_byte c) = false.
Proof.
  intros Hs Hp Hq Hh; unfold form_byte.
  destruct (Ascii.eqb c " "%char).
  { change (Ascii.eqb "+"%char d || false = false).
    rewrite Ascii.eqb_sym, Hp; reflexivity. }
  destruct (form_safe c) eqn:Ef.
  - change (Ascii.eqb c d || false = false).
    rewrite (form_safe_not c d Ef Hs); reflexivity.
  - pose proof (nat_ascii_bounded c) as Hb.
    destruct (div_mod_16 _ Hb) as [H1 [H2 _]].
    pose proof (Hh _ H1) as E1; pose proof (Hh _ H2) as E2; revert E1 E2.
    generalize (hex_digit (nat_of_ascii c / 16)) (hex_digit (nat_of_ascii c mod 16)).
    intros h1 h2 E1 E2.
    change (Ascii.eqb "%"%char d || (Ascii.eqb h1 d || (Ascii.eqb h2 d || false))
            = false).
    rewrite Ascii.eqb_sym, Hq, E1, E2; reflexivity.
Qed.

Lemma form_encode_no (d : ascii) (s : string) :
  form_safe d = false -> Ascii.eqb d "+"%char = false -> Ascii.eqb d "%"%char = false ->
  (forall k, (k < 16)%nat -> Ascii.eqb (hex_digit k) d = false) ->
  has_char d (form_encode s) = false.
Proof.
  intros Hs Hp Hq Hh; induction s as [|c s IH]; [reflexivity|].
  simpl; rewrite has_char_app, form_byte_no, IH; auto.
Qed.

Lemma form_encode_no_eq (s : string) : has_char "="%char (form_encode s) = false.
Proof.
  apply form_encode_no; try reflexivity.
  intros k Hk; apply hex_digit_facts; exact Hk.
Qed.

Lemma form_encode_no_amp (s : string) : has_char "&"%char (form_encode s) = false.
Proof.
  apply form_encode_no; try reflexivity.
  intros k Hk; apply hex_digit_facts; exact Hk.
Qed.

Lemma split_first_app (d : ascii) (a b : string) :
  has_char d a = false -> split_first d (a ++ String d b) = (a, Some b).
Proof.
  induction a as [|c a IH]; simpl; intros H.
  - rewrite Ascii.eqb_refl; reflexivity.
  - apply orb_false_iff in H as [H1 H2]; rewrite H1, (IH H2); reflexivity.
Qed.

Lemma split_on_no (d : ascii) (a : string) :
  has_char d a = false -> split_on d a = [a].
Proof.
  induction a as [|c a IH]; simpl; intros H; [reflexivity|].
  apply orb_false_iff in H as [H1 H2]; rewrite H1, (IH H2); reflexivity.
Qed.

Lemma split_on_app (d : ascii) (a b : string) :
  has_char d a = false -> split_on d (a ++ String d b) = a :: split_on d b.
Proof.
  induction a as [|c a IH]; simpl; intros H.
  - rewrite Ascii.eqb_refl; reflexivity.
  - apply orb_false_iff in H as [H1 H2]; rewrite H1, (IH H2); reflexivity.
Qed.

Lemma split_on_concat (d : ascii) (ps : list string) :
  ps <> [] -> Forall (fun p => has_char d p = false) ps ->
  split_on d (String.concat (String d EmptyString) ps) = ps.
Proof.
  induction ps as [|x ps IH]; intros Hn Hf; [congruence|].
  inversion Hf as [|? ? Hx Hps]; subst.
  destruct ps as [|y ps].
  - simpl; apply split_on_no; exact Hx.
  - change (String.concat (String d EmptyString) (x :: y :: ps))
      with (x ++ String d (String.concat (String d EmptyString) (y :: ps))).
    rewrite (split_on_app _ _ _ Hx), IH; [reflexivity | discriminate | exact Hps].
Qed.

Definition form_piece (kv : string * string) : string :=
  let '(k, v) := kv in form_encode k ++ "=" ++ form_encode v.

Lemma form_piece_parse (k v : string) :
  match split_first "="%char (form_piece (k, v)) with
  | (name, Some value) => (form_decode name, form_decode value)
  | (name, None) => (form_decode name, EmptyString)
  end = (k, v).
Proof.
  unfold form_piece; change ("=" ++ form_encode v) with (String "="%char (form_encode v)).
  rewrite split_first_app by apply form_encode_no_eq.
  rewrite !form_decode_encode; reflexivity.
Qed.

Lemma form_piece_nonempty (kv : string * string) :
  String.eqb (form_piece kv) EmptyString = false.
Proof.
  destruct kv as [k v]; unfold form_piece.
  destruct (form_encode k); reflexivity.
Qed.

(** [URLSearchParams] round trip: parsing the serialized pairs gives them
    back, in order, byte for byte. *)
Lemma form_parse_serialize (l : list (string * string)) :
  form_parse (form_serialize l) = l.
Proof.
  unfold form_parse, form_serialize.
  change (fun '(k, v) => form_encode k ++ "=" ++ form_encode v) with form_piece.
  destruct l as [|kv l]; [reflexivity|].
  rewrite split_on_concat.
  - rewrite filter_ext_in with (g := fun _ => true),  filter_true, map_map.
    + rewrite <- (map_id (kv :: l)) at 2; apply map_ext; intros [k v].
      apply form_piece_parse.
    + intros p Hp; apply in_map_iff in Hp as [kv' [<- _]].
      rewrite form_piece_nonempty; reflexivity.
  - discriminate.
  - apply Forall_forall; intros p Hp; apply in_map_iff in Hp as [[k v] [<- _]].
    unfold form_piece; rewrite !has_char_app, !form_encode_no_amp; reflexivity.
Qed.

(** ** Cookie jar: lemmas *)


Lemma assoc_remove_other (m n : string) (jar : list (string * string)) :
  m <> n -> assoc m (remove_key n jar) = assoc m jar.
Proof.
  intros Hmn; induction jar as [|[k v] jar IH]; simpl; [reflexivity|].
  destruct (String.eqb k n) eqn:E; simpl.
  - apply String.eqb_eq in E; subst.
    apply String.eqb_neq in Hmn; rewrite Hmn; exact IH.
  - rewrite IH; reflexivity.
Qed.


(** ** Further properties of the code *)

(** The token exchange body carries exactly the five parameters the
    handler appends, in order and unaltered: [grant_type], [client_id]
    ([""] when unset), [redirect_uri] ([""] when unset), [code] and
    [code_verifier]. *)
Theorem exchange_body_fields (e : env) (code verifier : string) :
  form_parse (exchange_body e code verifier) =
  [("grant_type", "authorization_code"); ("client_id", client_id e);
   ("redirect_uri",
      match NEXT_PUBLIC_OAUTH_REDIRECT_URI e with Some s => s | None => "" end);
   ("code", code); ("code_verifier", verifier)].
Proof. apply form_parse_serialize. Qed.






(** The PKCE initiator stores the verifier in an http-only, [SameSite=Lax]
    session cookie on path [/], and redirects to the provider's
    [start-pkce] page with a query that reads back as exactly
    [code_challenge] = the challenge of that verifier and
    [code_challenge_method] = [S256]. *)
Theorem start_pkce_redirect (verifier : string) (challenge : string -> string) :
  exists q,
    Start.GET verifier challenge =
      RRedirect ("http://localhost:8000/start-pkce?" ++ q)
        [SetCookie "pkce_verifier" verifier
           {| httpOnly := true; secure := false; sameSite := "lax"; path := "/";
              maxAge := None |}]
    /\ form_parse q = [("code_challenge", challenge verifier);
                       ("code_challenge_method", "S256")].
Proof.
  eexists; split; [reflexivity|]; apply form_parse_serialize.
Qed.

Lemma form_encode_safe (s : string) :
  forallb form_safe (list_ascii_of_string s) = true -> form_encode s = s.
Proof.
  induction s as [|c s IH]; simpl; [reflexivity|].
  intros H; apply andb_true_iff in H as [Hc Hs].
  unfold form_byte.
  rewrite (form_safe_not c " "%char Hc eq_refl), Hc; simpl; rewrite IH; auto.
Qed.

(** A challenge made of URL-safe bytes (base64url: letters, digits, [-]
    and [_]) appears in the redirect URL verbatim. *)
Theorem start_pkce_url_literal (verifier : string) (challenge : string -> string) :
  forallb form_safe (list_ascii_of_string (challenge verifier)) = true ->
  Start.GET verifier challenge =
    RRedirect ("http://localhost:8000/start-pkce?code_challenge=" ++ challenge verifier
               ++ "&code_challenge_method=S256")
      [SetCookie "pkce_verifier" verifier Start.verifier_cookie_opts].
Proof.
  intros H; unfold Start.GET, form_serialize; simpl.
  rewrite (form_encode_safe _ H); reflexivity.
Qed.

Lemma start_pkce_url_literal_witness :
  Start.GET "ver" (fun _ => "E9Melhoa2OwvFrEMTJguCHaoeK1t8URWbuGJSstw-cM") =
    RRedirect ("http://localhost:8000/start-pkce?code_challenge="
               ++ "E9Melhoa2OwvFrEMTJguCHaoeK1t8URWbuGJSstw-cM"
               ++ "&code_challenge_method=S256")
      [SetCookie "pkce_verifier" "ver" Start.verifier_cookie_opts].
Proof.
  apply (start_pkce_url_literal "ver"
           (fun _ => "E9Melhoa2OwvFrEMTJguCHaoeK1t8URWbuGJSstw-cM")).
  vm_compute; reflexivity.
Defined.









(** Without a token endpoint configured ([NEXT_PUBLIC_OAUTH_TOKEN_URL]
    unset or empty), a callback with code and verifier answers 500 with the
    message ["Token URL not defined"] and makes no outbound call. *)
Theorem callback_no_token_url (rt : runtime) (e : env) (reply : http_reply)
  (req : Callback.cb_request) (c v : string) :
  assoc "code" (Callback.query req) = Some c -> c <> "" ->
  assoc "pkce_verifier" (Callback.cb_cookies req) = Some v -> v <> "" ->
  present (NEXT_PUBLIC_OAUTH_TOKEN_URL e) = false ->
  Callback.GET rt e reply req =
  (RJson 500 (Callback.error_payload "Error" "Token URL not defined") [], []).
Proof.
  intros Hc Hc' Hv Hv' Hu; unfold Callback.GET, Callback.exchange.
  apply String.eqb_neq in Hc', Hv'; rewrite Hc, Hv, Hc', Hv'; simpl.
  destruct (NEXT_PUBLIC_OAUTH_TOKEN_URL e) as [u|]; [|reflexivity].
  simpl in Hu; destruct (String.eqb u ""); [reflexivity | discriminate].
Qed.

Lemma callback_no_token_url_witness :
  Callback.GET toy_rt {| NEXT_PUBLIC_API_URL := None; NEXT_PUBLIC_OAUTH_CLIENT_ID := None;
                         NEXT_PUBLIC_OAUTH_TOKEN_URL := Some "";
                         NEXT_PUBLIC_OAUTH_REDIRECT_URI := None;
                         NEXT_PUBLIC_APP_URL := None; node_env_production := true |}
    (Reply 200 JNull) toy_cb_req =
  (RJson 500 (Callback.error_payload "Error" "Token URL not defined") [], []).
Proof.
  apply (callback_no_token_url _ _ _ toy_cb_req "abc" "ver");
    solve [reflexivity | discriminate].
Defined.

(** Every response of the callback is the 400 [Invalid state] answer, a 500
    whose body has [error: "OAuth Error"], or the redirect of a resolved
    exchange. *)
Theorem callback_response_kinds (rt : runtime) (e : env) (reply : http_reply)
  (req : Callback.cb_request) :
  match fst (Callback.GET rt e reply req) with
  | RJson s b _ =>
      (s = 400%Z /\ b = Callback.invalid_state)
      \/ (s = 500%Z /\ prop_get b "error" = JStr "OAuth Error")
  | RRedirect _ _ => exists d, axios_call reply = AOk d
  | _ => False
  end.
Proof.
  unfold Callback.GET, Callback.exchange; case_matches; simpl; eauto.
Qed.

(** When the token endpoint rejects the exchange with an HTTP status, the
    500 payload reports that status and the endpoint's response body as
    [details] ([null] when there is none); the code was sent. *)
Theorem callback_provider_error (rt : runtime) (e : env) (req : Callback.cb_request)
  (c v u : string) (s : Z) (body : jval) :
  assoc "code" (Callback.query req) = Some c -> c <> "" ->
  assoc "pkce_verifier" (Callback.cb_cookies req) = Some v -> v <> "" ->
  NEXT_PUBLIC_OAUTH_TOKEN_URL e = Some u -> u <> "" ->
  ~ (200 <= s < 300)%Z ->
  exists b,
    Callback.GET rt e (Reply s body) req = (RJson 500 b [], [EvTokenExchange u c v]) /\
    prop_get b "status" = JNum s /\
    prop_get b "details" = match body with JUndef | JNull => JNull | _ => body end.
Proof.
  intros Hc Hc' Hv Hv' Hu Hu' Hs; unfold Callback.GET, Callback.exchange.
  apply String.eqb_neq in Hc', Hv', Hu'; rewrite Hc, Hv, Hc', Hv'; simpl.
  rewrite Hu, Hu'; unfold axios_call.
  destruct ((200 <=? s)%Z && (s <? 300)%Z) eqn:E.
  - apply andb_true_iff in E as [E1 E2]; apply Z.leb_le in E1; apply Z.ltb_lt in E2; lia.
  - eexists; split; [reflexivity|]; split; [reflexivity|].
    destruct body; reflexivity.
Qed.

Lemma callback_provider_error_witness :
  exists b,
    Callback.GET toy_rt toy_env (Reply 400 (JObj [("error", JStr "invalid_grant")]))
      toy_cb_req = (RJson 500 b [], [EvTokenExchange "http://localhost:8000/oauth/token" "abc" "ver"]) /\
    prop_get b "status" = JNum 400 /\
    prop_get b "details" = JObj [("error", JStr "invalid_grant")].
Proof.
  apply (callback_provider_error toy_rt toy_env toy_cb_req "abc" "ver"
           "http://localhost:8000/oauth/token" 400
           (JObj [("error", JStr "invalid_grant")]));
    try reflexivity; try discriminate; lia.
Defined.

(** If the dashboard URL built from [NEXT_PUBLIC_APP_URL] (the text
    ["undefined"] when unset) is not a valid URL, [NextResponse.redirect]
    throws after the exchange: the code has been spent at the provider, the
    answer is a 500 payload of an [Error] whose message reports the
    malformed URL, and no cookie is written, so the tokens are lost. *)
Theorem callback_bad_app_url (rt : runtime) (e : env) (reply : http_reply)
  (req : Callback.cb_request) (c v u : string) (d : jval) :
  assoc "code" (Callback.query req) = Some c -> c <> "" ->
  assoc "pkce_verifier" (Callback.cb_cookies req) = Some v -> v <> "" ->
  NEXT_PUBLIC_OAUTH_TOKEN_URL e = Some u -> u <> "" ->
  axios_call reply = AOk d ->
  let target := env_str (NEXT_PUBLIC_APP_URL e) ++ "/dashboard" in
  url_ok rt target = false ->
  exists b,
    Callback.GET rt e reply req = (RJson 500 b [], [EvTokenExchange u c v]) /\
    prop_get b "error" = JStr "OAuth Error" /\
    prop_get b "name" = JStr "Error" /\
    prop_get b "message" = JStr (Callback.malformed_url_message target).
Proof.
  intros Hc Hc' Hv Hv' Hu Hu' Hd target Hok; unfold Callback.GET, Callback.exchange.
  apply String.eqb_neq in Hc', Hv', Hu'; rewrite Hc, Hv, Hc', Hv'; simpl.
  rewrite Hu, Hu', Hd; fold target; rewrite Hok.
  eexists; split; [reflexivity|]; repeat split.
Qed.

Lemma callback_bad_app_url_witness :
  exists b,
    Callback.GET toy_rt {| NEXT_PUBLIC_API_URL := None; NEXT_PUBLIC_OAUTH_CLIENT_ID := None;
                           NEXT_PUBLIC_OAUTH_TOKEN_URL := Some "http://localhost:8000/oauth/token";
                           NEXT_PUBLIC_OAUTH_REDIRECT_URI := None;
                           NEXT_PUBLIC_APP_URL := None; node_env_production := false |}
      (Reply 200 JNull) toy_cb_req =
    (RJson 500 b [], [EvTokenExchange "http://localhost:8000/oauth/token" "abc" "ver"]) /\
    prop_get b "error" = JStr "OAuth Error" /\
    prop_get b "name" = JStr "Error" /\
    prop_get b "message" = JStr (Callback.malformed_url_message "undefined/dashboard").
Proof.
  apply (callback_bad_app_url toy_rt
           {| NEXT_PUBLIC_API_URL := None; NEXT_PUBLIC_OAUTH_CLIENT_ID := None;
              NEXT_PUBLIC_OAUTH_TOKEN_URL := Some "http://localhost:8000/oauth/token";
              NEXT_PUBLIC_OAUTH_REDIRECT_URI := None;
              NEXT_PUBLIC_APP_URL := None; node_env_production := false |}
           (Reply 200 JNull) toy_cb_req "abc" "ver"
           "http://localhost:8000/oauth/token" JNull);
    solve [reflexivity | discriminate].
Defined.

(** Without a usable cookie (absent, empty, or not JSON), both copies
    redirect to [/auth/login] after reading the cookie and nothing else:
    the provider is not called. *)
Theorem no_cookie_login (rt : runtime) (e : env) (prov : provider) (req : request) :
  cookie_get req "oauth_data" = None
  \/ (exists c, cookie_get req "oauth_data" = Some c /\ (c = "" \/ json_parse rt c = None)) ->
  MatcherGated.middleware rt e prov req = (RRedirect "/auth/login" [], [EvReadCookie "oauth_data"])
  /\ (matcher_matches (pathname req) = true ->
      PrefixCheck.middleware rt e prov req =
        (RRedirect "/auth/login" [], [EvReadCookie "oauth_data"])).
Proof.
  intros H; split; [|intros Hm];
    unfold MatcherGated.middleware, PrefixCheck.middleware;
    [|rewrite (matcher_protected _ Hm); simpl];
    (destruct H as [H | [c [H [-> | Hp]]]]; rewrite H; [reflexivity | reflexivity|]);
    destruct (String.eqb c ""); [reflexivity | rewrite Hp; reflexivity | reflexivity | rewrite Hp; reflexivity].
Qed.

Lemma no_cookie_login_witness :
  MatcherGated.middleware toy_rt toy_env (prov_of (Reply 200 JNull) (Reply 200 JNull))
    (dash_req "not json") = (RRedirect "/auth/login" [], [EvReadCookie "oauth_data"]).
Proof.
  refine (proj1 (no_cookie_login toy_rt toy_env (prov_of (Reply 200 JNull) (Reply 200 JNull))
                   (dash_req "not json") _)).
  right; exists "not json"; split; [reflexivity | right; reflexivity].
Defined.



(** A refresh that fails (an HTTP error, a network error, another
    exception, or a 2xx with a [null] body) ends in the login redirect,
    in both copies. *)
Theorem refresh_failure_login (rt : runtime) (e : env) (prov : provider)
  (req : request) (a r : jval) :
  (forall d, axios_call (refresh_reply prov) = AOk d -> d = JNull \/ d = JUndef) ->
  (snd (MatcherGated.middleware rt e prov req) =
     [EvReadCookie "oauth_data"; EvValidate a; EvRefresh r] ->
   fst (MatcherGated.middleware rt e prov req) = RRedirect "/auth/login" []) /\
  (snd (PrefixCheck.middleware rt e prov req) =
     [EvReadCookie "oauth_data"; EvValidate a; EvRefresh r] ->
   fst (PrefixCheck.middleware rt e prov req) = RRedirect "/auth/login" []).
Proof.
  intros Hf.
  assert (R : MatcherGated.refresh rt e prov = RRedirect "/auth/login" []).
  { unfold MatcherGated.refresh.
    destruct (axios_call (refresh_reply prov)) as [d| |] eqn:E; try reflexivity.
    destruct (Hf d eq_refl) as [-> | ->]; reflexivity. }
  split; intros H.
  - rewrite (matcher_gated_refreshed _ _ _ _ _ _ H); exact R.
  - rewrite (prefix_check_refreshed _ _ _ _ _ _ H), <- refresh_same; exact R.
Qed.

Lemma refresh_failure_login_witness :
  fst (MatcherGated.middleware toy_rt toy_env (prov_of (Reply 401 JNull) (Reply 400 JNull))
         (dash_req both_tokens_text)) = RRedirect "/auth/login" [].
Proof.
  refine (proj1 (refresh_failure_login toy_rt toy_env
            (prov_of (Reply 401 JNull) (Reply 400 JNull)) (dash_req both_tokens_text)
            (JStr "a") (JStr "r") _) eq_refl).
  intros d H; discriminate H.
Defined.

(** The only cookie operation either middleware copy performs is writing
    [oauth_data], always http-only, [SameSite=Lax], on path [/], and
    [secure] exactly in production; it never deletes a cookie. *)
Theorem middleware_cookie_writes (rt : runtime) (e : env) (prov : provider)
  (req : request) (op : cookie_op) :
  In op (resp_ops (fst (MatcherGated.middleware rt e prov req)))
  \/ In op (resp_ops (fst (PrefixCheck.middleware rt e prov req))) ->
  exists v o, op = SetCookie "oauth_data" v o /\ httpOnly o = true /\
    secure o = node_env_production e /\ sameSite o = "lax" /\ path o = "/".
Proof.
  intros H.
  assert (Hr : In op (resp_ops (MatcherGated.refresh rt e prov))).
  { destruct H as [H | H].
    - exact (matcher_gated_ops _ _ _ _ _ H).
    - rewrite refresh_same; exact (prefix_check_ops _ _ _ _ _ H). }
  revert Hr; unfold MatcherGated.refresh.
  destruct (axios_call (refresh_reply prov)) as [d| |]; simpl; try tauto.
  destruct (strict_get d "expires_in"); simpl; [|tauto].
  intros [<- | []]; do 2 eexists; repeat split.
Qed.

Lemma middleware_cookie_writes_witness :
  exists v o, SetCookie "oauth_data" both_tokens_text
                {| httpOnly := true; secure := false; sameSite := "lax"; path := "/";
                   maxAge := Some (JNum 3600) |} = SetCookie "oauth_data" v o /\
    httpOnly o = true /\ secure o = false /\ sameSite o = "lax" /\ path o = "/".
Proof.
  apply (middleware_cookie_writes toy_rt toy_env
           (prov_of (Reply 401 JNull)
              (Reply 200 (JObj [("access_token", JStr "a"); ("refresh_token", JStr "r")])))
           (dash_req both_tokens_text)).
  left; vm_compute; left; reflexivity.
Defined.


(** The second copy throws only when the cookie parses to [null]; it
    returns [undefined] only after a validation error other than 401; its
    redirects all go to [/auth/login], never to [/auth/forbidden]. *)
Theorem prefix_check_outcomes (rt : runtime) (e : env) (prov : provider)
  (req : request) :
  match fst (PrefixCheck.middleware rt e prov req) with
  | RNext _ => True
  | RRedirect t ops => t = "/auth/login" /\ ops = []
  | RThrow _ => exists c pd, cookie_get req "oauth_data" = Some c /\
                  json_parse rt c = Some pd /\ (pd = JNull \/ pd = JUndef)
  | RUndefined => exists st d m, axios_call (validate_reply prov) = AErr st d m /\
                    status_is st 401 = false
  | RJson _ _ _ => False
  end.
Proof.
  unfold PrefixCheck.middleware, PrefixCheck.refresh, PrefixCheck.login.
  case_matches; simpl; auto;
    try (do 3 eexists; split; [reflexivity | assumption]; fail).
  all: match goal with
       | H : strict_get ?j _ = None |- _ =>
           destruct j; simpl in H; try discriminate
       end.
  all: do 2 eexists; split; [reflexivity | split; [eassumption | auto]].
Qed.

